(** * IDE-FreezeGuard collector: event validation, metric updates, recent-event buffer

    A shallow embedding of [collector/models.py], [collector/metrics.py],
    [collector/app.py] and of the VS Code variant's [metrics.py] and
    [models.py], followed by the properties of the ingestion pipeline.

    Modelling conventions.
    - A Python [float] is an IEEE-754 binary64 value: Rocq's primitive [float].
    - A Python [int] is unbounded: [Z].
    - The request object is given by what its two awaited methods produce:
      the raw body, and either the exception or the document of
      [request.json()].
    - pydantic and prometheus_client are libraries, not code of this
      repository. They are modelled at the level of the calls the collector
      makes: a field validator per annotated type, [Counter.inc],
      [Histogram.observe] and [labels].  The validators cover the JSON-native
      inputs (a JSON string for [str], a JSON number for [float], a JSON
      integer for [int], an ISO-8601 string for [datetime]); the further
      coercions of the library's lax mode are not modelled and such inputs
      count as rejected.
    - The [print] of the raw body and the [async] scheduling of the handler are
      left out. *)

From Stdlib Require Import Floats ZArith Ascii String DecimalString.
From stdpp Require Import gmap strings list.

Set Warnings "-register-all,-inexact-float".
Local Open Scope string_scope.
Local Open Scope list_scope.
Local Open Scope Z_scope.

(** ** Python values *)

(** What [json.loads] produces.  A [dict] is the list of its items. *)
Inductive json_value :=
| JNull
| JBool (b : bool)
| JInt (z : Z)
| JFloat (f : float)
| JString (s : string)
| JArray (l : list json_value)
| JObject (items : list (string * json_value)).

(** [d.get(k)] on the items of a dict. *)
Fixpoint dict_get (k : string) (items : list (string * json_value)) : option json_value :=
  match items with
  | [] => None
  | (k', v) :: rest => if String.eqb k k' then Some v else dict_get k rest
  end.

(** [float(z)] for a Python int: the nearest binary64 value. *)
Definition float_of_Z (z : Z) : float :=
  SF2Prim (binary_normalize prec emax z 0 false).

(** A number handed to the metrics library: the collector passes both
    [int]s ([edt_stalls], [heap_delta_bytes]) and [float]s. *)
Inductive number :=
| Int (z : Z)
| Float (f : float).

(** Python's [max(a, b)] on floats: the first argument unless the second is
    strictly greater. *)
Definition py_max (a b : float) : float :=
  if PrimFloat.ltb a b then b else a.

(** ** [models.py] *)

Module datetime.

(** A parsed timestamp; [tzinfo] is the UTC offset in minutes, if any. *)
Record datetime := {
  year : N; month : N; day : N;
  hour : N; minute : N; second : N; microsecond : N;
  tzinfo : option Z
}.

Definition is_digit (c : ascii) : bool :=
  let n := N_of_ascii c in (48 <=? n)%N && (n <=? 57)%N.

(** Read exactly [n] decimal digits. *)
Fixpoint digits (n : nat) (acc : N) (s : string) : option (N * string) :=
  match n with
  | O => Some (acc, s)
  | S n' =>
      match s with
      | String c rest =>
          if is_digit c
          then digits n' (10 * acc + (N_of_ascii c - 48))%N rest
          else None
      | EmptyString => None
      end
  end.

Definition expect (c : ascii) (s : string) : option string :=
  match s with
  | String c' rest => if Ascii.eqb c c' then Some rest else None
  | EmptyString => None
  end.

(** Up to six fractional digits, scaled to microseconds. *)
Fixpoint fraction (fuel : nat) (scale acc : N) (s : string) : N * string :=
  match fuel with
  | O => (acc, s)
  | S fuel' =>
      match s with
      | String c rest =>
          if is_digit c
          then fraction fuel' (scale / 10)%N
                 (acc + scale * (N_of_ascii c - 48))%N rest
          else (acc, s)
      | EmptyString => (acc, s)
      end
  end.

Definition is_leap (y : N) : bool :=
  ((y mod 4 =? 0) && negb (y mod 100 =? 0) || (y mod 400 =? 0))%N.

Definition days_in_month (y m : N) : N :=
  match m with
  | 2 => if is_leap y then 29 else 28
  | 4 | 6 | 9 | 11 => 30
  | _ => 31
  end%N.

Definition timezone (s : string) : option (option Z) :=
  match s with
  | EmptyString => Some None
  | String c rest =>
      if (Ascii.eqb c "Z" || Ascii.eqb c "z")%bool
      then match rest with EmptyString => Some (Some 0) | _ => None end
      else if (Ascii.eqb c "+" || Ascii.eqb c "-")%bool
      then
        '(h, s1) ← digits 2 0 rest;
        s2 ← expect ":" s1;
        '(m, s3) ← digits 2 0 s2;
        match s3 with
        | EmptyString =>
            if ((h <? 24) && (m <? 60))%N
            then
              let off := Z.of_N (60 * h + m) in
              Some (Some (if Ascii.eqb c "-" then - off else off))
            else None
        | _ => None
        end
      else None
  end.

(** [YYYY-MM-DD(T| )HH:MM:SS[.f{1,6}][Z|+HH:MM|-HH:MM]] *)
Definition fromisoformat (s : string) : option datetime :=
  '(y, s) ← digits 4 0 s;
  s ← expect "-" s;
  '(mo, s) ← digits 2 0 s;
  s ← expect "-" s;
  '(d, s) ← digits 2 0 s;
  s ← match expect "T" s with Some r => Some r | None => expect " " s end;
  '(h, s) ← digits 2 0 s;
  s ← expect ":" s;
  '(mi, s) ← digits 2 0 s;
  s ← expect ":" s;
  '(se, s) ← digits 2 0 s;
  '(us, s) ← match expect "." s with
             | Some r =>
                 match r with
                 | String c _ =>
                     if is_digit c then Some (fraction 6 100000 0 r) else None
                 | EmptyString => None
                 end
             | None => Some (0%N, s)
             end;
  tz ← timezone s;
  if ((1 <=? mo) && (mo <=? 12) && (1 <=? d) && (d <=? days_in_month y mo)
      && (h <? 24) && (mi <? 60) && (se <? 60))%N
  then Some {| year := y; month := mo; day := d; hour := h; minute := mi;
               second := se; microsecond := us; tzinfo := tz |}
  else None.

End datetime.

Abbreviation datetime := datetime.datetime.

(** The [Literal] of the [thread] field. *)
Inductive Thread := EDT | BGT | MAIN | WORKER.

(** The string a [Thread] is, as it is passed to [labels]. *)
Definition thread_str (t : Thread) : string :=
  match t with
  | EDT => "EDT" | BGT => "BGT" | MAIN => "MAIN" | WORKER => "WORKER"
  end.

Module models.

Record ActionEvent := {
  action : string;
  duration_ms : float;
  thread : Thread;
  heap_delta_bytes : Z;
  edt_stalls : Z;
  edt_longest_stall_ms : float;
  ts : datetime
}.

(** One entry of a pydantic [ValidationError]. *)
Inductive FieldError :=
| NotAMapping
| Missing (field : string)
| Invalid (field : string).

(** The validators of the annotated types. *)
Definition validate_str (v : json_value) : option string :=
  match v with JString s => Some s | _ => None end.

Definition validate_float (v : json_value) : option float :=
  match v with
  | JFloat f => Some f
  | JInt z => Some (float_of_Z z)
  | _ => None
  end.

Definition validate_int (v : json_value) : option Z :=
  match v with JInt z => Some z | _ => None end.

(** The members of [Literal["EDT", "BGT", "MAIN", "WORKER"]]. *)
Definition thread_literal : list string := ["EDT"; "BGT"; "MAIN"; "WORKER"].

Definition validate_thread (v : json_value) : option Thread :=
  match v with
  | JString s =>
      if String.eqb s "EDT" then Some EDT
      else if String.eqb s "BGT" then Some BGT
      else if String.eqb s "MAIN" then Some MAIN
      else if String.eqb s "WORKER" then Some WORKER
      else None
  | _ => None
  end.

Definition validate_datetime (v : json_value) : option datetime :=
  match v with JString s => datetime.fromisoformat s | _ => None end.

(** A field without default. *)
Definition required {A} (field : string) (validate : json_value → option A)
    (items : list (string * json_value)) : list FieldError + A :=
  match dict_get field items with
  | None => inl [Missing field]
  | Some v =>
      match validate v with
      | Some a => inr a
      | None => inl [Invalid field]
      end
  end.

(** A field with a default. *)
Definition with_default {A} (field : string) (validate : json_value → option A)
    (default : A) (items : list (string * json_value)) : list FieldError + A :=
  match dict_get field items with
  | None => inr default
  | Some v =>
      match validate v with
      | Some a => inr a
      | None => inl [Invalid field]
      end
  end.

Definition errors {A} (r : list FieldError + A) : list FieldError :=
  match r with inl e => e | inr _ => [] end.

(** The constructor call on the unpacked [data]: every field is validated,
    in declaration order, and all errors are reported together.  Keys that are not fields are
    ignored.  For [data] that is not a dict the call itself fails. *)
Definition ActionEvent_new (data : json_value) : list FieldError + ActionEvent :=
  match data with
  | JObject items =>
      let a := required "action" validate_str items in
      let d := required "duration_ms" validate_float items in
      let t := required "thread" validate_thread items in
      let h := with_default "heap_delta_bytes" validate_int 0 items in
      let e := with_default "edt_stalls" validate_int 0 items in
      let l := with_default "edt_longest_stall_ms" validate_float 0%float items in
      let s := required "ts" validate_datetime items in
      match a, d, t, h, e, l, s with
      | inr a, inr d, inr t, inr h, inr e, inr l, inr s =>
          inr {| action := a; duration_ms := d; thread := t;
                 heap_delta_bytes := h; edt_stalls := e;
                 edt_longest_stall_ms := l; ts := s |}
      | _, _, _, _, _, _, _ =>
          inl (errors a ++ errors d ++ errors t ++ errors h ++ errors e
               ++ errors l ++ errors s)
      end
  | _ => inl [NotAMapping]
  end.

End models.

(** ** prometheus_client, as the collector uses it *)

Module prometheus_client.

(** A metric object as its constructor call describes it. *)
Inductive Metric :=
| Counter (name documentation : string) (labelnames : list string)
| Histogram (name documentation : string) (labelnames : list string)
    (buckets : list float).

Definition name (m : Metric) : string :=
  match m with Counter n _ _ | Histogram n _ _ _ => n end.

Definition labelnames (m : Metric) : list string :=
  match m with Counter _ _ l | Histogram _ _ l _ => l end.

Definition is_histogram (m : Metric) : bool :=
  match m with Histogram _ _ _ _ => true | Counter _ _ _ => false end.

Definition buckets (m : Metric) : list float :=
  match m with Histogram _ _ _ b => b | Counter _ _ _ => [] end.

(** The children of a labelled metric, keyed by the tuple of label values.
    A counter child is its running total; the collector only ever adds
    integers, and the total is kept as an integer.  A histogram child is the
    sequence of observed amounts, from which the library derives the sum, the
    count and the bucket counts.  The library itself stores totals and sums
    as binary64; integer amounts beyond the range of binary64 are outside
    this model. *)
Abbreviation counter_children := (gmap (list string) Z).
Abbreviation histogram_children := (gmap (list string) (list number)).

(** [metric.labels(...)]: the child is created on first use. *)
Definition labels {V} (init : V) (labelvalues : list string)
    (children : gmap (list string) V) : gmap (list string) V :=
  match children !! labelvalues with
  | Some _ => children
  | None => <[labelvalues := init]> children
  end.

(** The value of a counter series; 0 where no child exists yet. *)
Definition value (children : counter_children) (labelvalues : list string) : Z :=
  default 0 (children !! labelvalues).

(** The observations of a histogram series. *)
Definition observations (children : histogram_children)
    (labelvalues : list string) : list number :=
  default [] (children !! labelvalues).

(** The sum of a counter over all its series. *)
Definition total (children : counter_children) : Z :=
  map_fold (λ _ v acc, v + acc) 0 children.

(** [child.inc(amount)]; [None] is the [ValueError] for a negative amount. *)
Definition inc (labelvalues : list string) (amount : Z)
    (children : counter_children) : option counter_children :=
  if amount <? 0 then None
  else Some (<[labelvalues := value children labelvalues + amount]> children).

(** [child.observe(amount)] *)
Definition observe (labelvalues : list string) (amount : number)
    (children : histogram_children) : histogram_children :=
  <[labelvalues := observations children labelvalues ++ [amount]]> children.

End prometheus_client.

(** ** [metrics.py] of the unified collector *)

Module metrics.
Import prometheus_client.
Local Open Scope float_scope.

Definition ACTION_DURATION_BUCKETS : list float :=
  [0.010; 0.025; 0.050; 0.100; 0.250; 0.500; 1.0; 2.0; 5.0; 10.0].

Definition STALL_DURATION_BUCKETS : list float :=
  [0.100; 0.250; 0.500; 1.0; 2.0; 5.0].

Definition action_duration_seconds : Metric :=
  Histogram "action_duration_seconds" "Action duration in seconds"
    ["action"; "thread"] ACTION_DURATION_BUCKETS.

Definition edt_stall_duration_seconds : Metric :=
  Histogram "edt_stall_duration_seconds"
    "Observed EDT stall (longest in event window), seconds"
    ["action"] STALL_DURATION_BUCKETS.

Definition edt_stalls_total : Metric :=
  Counter "edt_stalls_total" "Count of EDT stall events observed" ["action"].

Definition events_total : Metric :=
  Counter "events_total" "Number of events ingested" ["action"; "thread"].

(** The bounds are written as integers in the source; the library takes
    their [float]. *)
Definition heap_delta_bytes : Metric :=
  Histogram "heap_delta_bytes" "Memory allocation delta in bytes per action"
    ["action"; "thread"]
    [-50000000; -10000000; -1000000; -100000; -10000; 0;
     10000; 100000; 1000000; 10000000; 50000000].

(** The metric objects the module defines, in definition order. *)
Definition all : list Metric :=
  [action_duration_seconds; edt_stall_duration_seconds; edt_stalls_total;
   events_total; heap_delta_bytes].

End metrics.

(** ** The VS Code collector: [vscode-freezeguard/collector] *)

Module vscode_freezeguard.
Import prometheus_client.

Module metrics.
Local Open Scope float_scope.

Definition ACTION_DURATION_BUCKETS : list float :=
  [0.010; 0.025; 0.050; 0.100; 0.250; 0.500; 1.0; 2.0; 5.0; 10.0].

Definition STALL_DURATION_BUCKETS : list float :=
  [0.100; 0.250; 0.500; 1.0; 2.0; 5.0].

Definition action_duration_seconds : Metric :=
  Histogram "vscode_action_duration_seconds"
    "VSCode action duration in seconds"
    ["action"; "thread"] ACTION_DURATION_BUCKETS.

Definition edt_stall_duration_seconds : Metric :=
  Histogram "vscode_main_stall_duration_seconds"
    "Observed main thread stall (longest in event window), seconds"
    ["action"] STALL_DURATION_BUCKETS.

Definition edt_stalls_total : Metric :=
  Counter "vscode_main_stalls_total"
    "Count of main thread stall events observed" ["action"].

Definition events_total : Metric :=
  Counter "vscode_events_total" "Number of VSCode events ingested"
    ["action"; "thread"].

Definition all : list Metric :=
  [action_duration_seconds; edt_stall_duration_seconds; edt_stalls_total;
   events_total].

End metrics.

Module models.

(** [Literal["MAIN", "WORKER"]] *)
Definition thread_literal : list string := ["MAIN"; "WORKER"].

Definition validate_thread (v : json_value) : option Thread :=
  match v with
  | JString s =>
      if String.eqb s "MAIN" then Some MAIN
      else if String.eqb s "WORKER" then Some WORKER
      else None
  | _ => None
  end.

(** The constructor call of the VS Code [ActionEvent]: the fields and
    defaults of the unified class, with the two-valued [Literal]. *)
Definition ActionEvent_new (data : json_value)
    : list models.FieldError + models.ActionEvent :=
  match data with
  | JObject items =>
      let a := models.required "action" models.validate_str items in
      let d := models.required "duration_ms" models.validate_float items in
      let t := models.required "thread" validate_thread items in
      let h := models.with_default "heap_delta_bytes" models.validate_int 0 items in
      let e := models.with_default "edt_stalls" models.validate_int 0 items in
      let l := models.with_default "edt_longest_stall_ms" models.validate_float
                 0%float items in
      let s := models.required "ts" models.validate_datetime items in
      match a, d, t, h, e, l, s with
      | inr a, inr d, inr t, inr h, inr e, inr l, inr s =>
          inr {| models.action := a; models.duration_ms := d;
                 models.thread := t; models.heap_delta_bytes := h;
                 models.edt_stalls := e; models.edt_longest_stall_ms := l;
                 models.ts := s |}
      | _, _, _, _, _, _, _ =>
          inl (models.errors a ++ models.errors d ++ models.errors t
               ++ models.errors h ++ models.errors e ++ models.errors l
               ++ models.errors s)
      end
  | _ => inl [models.NotAMapping]
  end.

End models.

End vscode_freezeguard.

(** The last [n] items of a list, oldest first. *)
Definition lastn {A} (n : nat) (l : list A) : list A :=
  drop (length l - n) l.

(** ** Built-in formatting, as [report] uses it *)

Module builtins.














End builtins.

(** ** [app.py] *)

Module app.
Import prometheus_client.

(** What awaiting [request.json()] does. *)
Inductive parsed :=
| Raises (ex : string)
| Returns (data : json_value).

(** The request, as far as the handler looks at it: [body] is the raw body
    (the [raw] of the handler), [json] the outcome of parsing it. *)
Record Request := {
  body : string;
  json : parsed
}.

(** [collections.deque.append] with [maxlen]: the new item goes to the
    right end and, once the bound is exceeded, the leftmost item goes. *)
Definition deque_append {A} (maxlen : nat) (x : A) (d : list A) : list A :=
  let d' := d ++ [x] in
  if (maxlen <? length d')%nat then tail d' else d'.

Definition maxlen : nat := 256.

(** The module-level objects the handlers share: the children of the five
    metrics imported from [metrics], and [RING]. *)
Record State := {
  action_duration_seconds : histogram_children;
  edt_stall_duration_seconds : histogram_children;
  edt_stalls_total : counter_children;
  events_total : counter_children;
  heap_delta_bytes : histogram_children;
  RING : list (datetime * models.ActionEvent)
}.

(** The state once the module is imported. *)
Definition initial : State :=
  {| action_duration_seconds := ∅; edt_stall_duration_seconds := ∅;
     edt_stalls_total := ∅; events_total := ∅; heap_delta_bytes := ∅;
     RING := [] |}.

(** A global and the write to it. *)
Record Global (V : Type) := {
  get : State → V;
  set : V → State → State
}.
Arguments get {V}.
Arguments set {V}.

Definition g_action_duration_seconds : Global histogram_children :=
  {| get := action_duration_seconds;
     set v st :=
       {| action_duration_seconds := v;
          edt_stall_duration_seconds := edt_stall_duration_seconds st;
          edt_stalls_total := edt_stalls_total st;
          events_total := events_total st;
          heap_delta_bytes := heap_delta_bytes st;
          RING := RING st |} |}.

Definition g_edt_stall_duration_seconds : Global histogram_children :=
  {| get := edt_stall_duration_seconds;
     set v st :=
       {| action_duration_seconds := action_duration_seconds st;
          edt_stall_duration_seconds := v;
          edt_stalls_total := edt_stalls_total st;
          events_total := events_total st;
          heap_delta_bytes := heap_delta_bytes st;
          RING := RING st |} |}.

Definition g_edt_stalls_total : Global counter_children :=
  {| get := edt_stalls_total;
     set v st :=
       {| action_duration_seconds := action_duration_seconds st;
          edt_stall_duration_seconds := edt_stall_duration_seconds st;
          edt_stalls_total := v;
          events_total := events_total st;
          heap_delta_bytes := heap_delta_bytes st;
          RING := RING st |} |}.

Definition g_events_total : Global counter_children :=
  {| get := events_total;
     set v st :=
       {| action_duration_seconds := action_duration_seconds st;
          edt_stall_duration_seconds := edt_stall_duration_seconds st;
          edt_stalls_total := edt_stalls_total st;
          events_total := v;
          heap_delta_bytes := heap_delta_bytes st;
          RING := RING st |} |}.

Definition g_heap_delta_bytes : Global histogram_children :=
  {| get := heap_delta_bytes;
     set v st :=
       {| action_duration_seconds := action_duration_seconds st;
          edt_stall_duration_seconds := edt_stall_duration_seconds st;
          edt_stalls_total := edt_stalls_total st;
          events_total := events_total st;
          heap_delta_bytes := v;
          RING := RING st |} |}.

Definition g_RING : Global (list (datetime * models.ActionEvent)) :=
  {| get := RING;
     set v st :=
       {| action_duration_seconds := action_duration_seconds st;
          edt_stall_duration_seconds := edt_stall_duration_seconds st;
          edt_stalls_total := edt_stalls_total st;
          events_total := events_total st;
          heap_delta_bytes := heap_delta_bytes st;
          RING := v |} |}.

(** *** Statements of the handler: state and exceptions *)

Inductive Exception := ValueError.

Inductive Result (A : Type) :=
| Return (a : A)
| Raise (ex : Exception).
Arguments Return {A}.
Arguments Raise {A}.

Definition M (A : Type) : Type := State → Result A * State.

Definition ret {A} (a : A) : M A := fun st => (Return a, st).

Definition bind {A B} (m : M A) (k : A → M B) : M B :=
  fun st =>
    match m st with
    | (Return a, st') => k a st'
    | (Raise ex, st') => (Raise ex, st')
    end.

Definition when (b : bool) (m : M unit) : M unit :=
  if b then m else ret tt.

#[local] Instance M_ret : MRet M := @ret.
#[local] Instance M_bind : MBind M := λ A B k m, bind m k.

(** [metric.labels(...).observe(amount)] *)
Definition labels_observe (metric : Global histogram_children)
    (labelvalues : list string) (amount : number) : M unit :=
  fun st =>
    let children := labels [] labelvalues (get metric st) in
    (Return tt, set metric (observe labelvalues amount children) st).

(** [metric.labels(...).inc(amount)] *)
Definition labels_inc (metric : Global counter_children)
    (labelvalues : list string) (amount : Z) : M unit :=
  fun st =>
    let children := labels 0 labelvalues (get metric st) in
    match inc labelvalues amount children with
    | Some children' => (Return tt, set metric children' st)
    | None => (Raise ValueError, set metric children st)
    end.

(** [RING.append(item)] *)
Definition RING_append (item : datetime * models.ActionEvent) : M unit :=
  fun st => (Return tt, set g_RING (deque_append maxlen item (RING st)) st).

(** *** [/ingest] *)

Inductive Content :=
| Ok                                                   (* {"ok": True} *)
| JsonParse (ex : string) (raw : string)               (* "error": "json parse: ..." *)
| Model (ex : list models.FieldError) (data : json_value). (* "error": "model: ..." *)

Inductive Response :=
| JSONResponse (status_code : Z) (content : Content)
| InternalServerError (ex : Exception).

(** Lines 37 to 51: the metric updates and the append, for a validated
    event. *)
Definition record (ev : models.ActionEvent) : M unit :=
  let secs := (models.duration_ms ev / 1000)%float in
  let stall_secs := (py_max 0 (models.edt_longest_stall_ms ev) / 1000)%float in
  let action := models.action ev in
  let thread := thread_str (models.thread ev) in
  labels_observe g_action_duration_seconds [action; thread] (Float secs) ;;
  when (0 <? stall_secs)%float
    (labels_observe g_edt_stall_duration_seconds [action] (Float stall_secs)) ;;
  when (0 <? models.edt_stalls ev)
    (labels_inc g_edt_stalls_total [action] (models.edt_stalls ev)) ;;
  labels_inc g_events_total [action; thread] 1 ;;
  when (negb (models.heap_delta_bytes ev =? 0))
    (labels_observe g_heap_delta_bytes [action; thread]
       (Int (models.heap_delta_bytes ev))) ;;
  RING_append (models.ts ev, ev).

Definition ingest (request : Request) (st : State) : Response * State :=
  match json request with
  | Raises ex => (JSONResponse 400 (JsonParse ex (body request)), st)
  | Returns data =>
      match models.ActionEvent_new data with
      | inl ex => (JSONResponse 422 (Model ex data), st)
      | inr ev =>
          match record ev st with
          | (Return _, st') => (JSONResponse 200 Ok, st')
          | (Raise ex, st') => (InternalServerError ex, st')
          end
      end
  end.

(** A sequence of calls, one after the other. *)
Fixpoint ingest_all (requests : list Request) (st : State) : State :=
  match requests with
  | [] => st
  | r :: rest => ingest_all rest (ingest r st).2
  end.

(** The event of a request that passes both checks of the handler. *)
Definition accepted (request : Request) : option models.ActionEvent :=
  match json request with
  | Raises _ => None
  | Returns data =>
      match models.ActionEvent_new data with
      | inl _ => None
      | inr ev => Some ev
      end
  end.


(** What a buffer entry is for an event. *)
Definition entry (ev : models.ActionEvent) : datetime * models.ActionEvent :=
  (models.ts ev, ev).

(** The label values the handler builds from an event. *)
Definition action_thread (ev : models.ActionEvent) : list string :=
  [models.action ev; thread_str (models.thread ev)].

Definition secs (ev : models.ActionEvent) : float :=
  (models.duration_ms ev / 1000)%float.

Definition stall_secs (ev : models.ActionEvent) : float :=
  (py_max 0 (models.edt_longest_stall_ms ev) / 1000)%float.

(** The state [record] leaves, field by field; [record_recorded] below
    proves that this is what the statements of the handler compute. *)
Definition recorded (ev : models.ActionEvent) (st : State) : State :=
  {| action_duration_seconds :=
       observe (action_thread ev) (Float (secs ev)) (action_duration_seconds st);
     edt_stall_duration_seconds :=
       if (0 <? stall_secs ev)%float
       then observe [models.action ev] (Float (stall_secs ev))
              (edt_stall_duration_seconds st)
       else edt_stall_duration_seconds st;
     edt_stalls_total :=
       if 0 <? models.edt_stalls ev
       then <[ [models.action ev] :=
                 value (edt_stalls_total st) [models.action ev]
                 + models.edt_stalls ev ]> (edt_stalls_total st)
       else edt_stalls_total st;
     events_total :=
       <[ action_thread ev := value (events_total st) (action_thread ev) + 1 ]>
         (events_total st);
     heap_delta_bytes :=
       if models.heap_delta_bytes ev =? 0
       then heap_delta_bytes st
       else observe (action_thread ev) (Int (models.heap_delta_bytes ev))
              (heap_delta_bytes st);
     RING := deque_append maxlen (entry ev) (RING st) |}.

(** [response.status_code]; an exception that escapes the handler is
    answered with 500. *)
Definition status_code (response : Response) : Z :=
  match response with
  | JSONResponse code _ => code
  | InternalServerError _ => 500
  end.

(** The state after a sequence of validated events, each recorded in turn. *)
Fixpoint recorded_all (evs : list models.ActionEvent) (st : State) : State :=
  match evs with
  | [] => st
  | ev :: rest => recorded_all rest (recorded ev st)
  end.

(** *** [/report] *)





End app.

(** ** The debug view *)

Module debug.
Import app.

(** Modelled from the spec: the [/debug] handler and the lifetime counter it
    reports.  [app.py] defines [/ingest], [/metrics] and [/report] only and
    its [RING] is a bare [deque]; the tests call [/debug] and read the keys
    [recent_events] and [total_events] of its answer.  Following sections
    4.3, 4.5 and 6 of the specification, the view lists the retained entries
    and a count of all events ever appended; the count is kept next to the
    collector's state and goes up by one with every append, that is with
    every acknowledged ingest. *)
Record Tracked := {
  collector : State;
  appended : nat
}.

(** Modelled from the spec: the counter of a fresh collector, no event
    appended yet. *)
Definition initial : Tracked := {| collector := app.initial; appended := 0 |}.

(** Modelled from the spec: the count of appends kept along [app.ingest],
    which is the handler of the source, unchanged; an acknowledged call is
    one that appended. *)
Definition ingest (request : Request) (t : Tracked) : Response * Tracked :=
  let '(response, st') := app.ingest request (collector t) in
  (response,
   {| collector := st';
      appended :=
        match response with
        | JSONResponse _ Ok => S (appended t)
        | _ => appended t
        end |}).

Fixpoint ingest_all (requests : list Request) (t : Tracked) : Tracked :=
  match requests with
  | [] => t
  | r :: rest => ingest_all rest (ingest r t).2
  end.

(** Modelled from the spec: the answer of [/debug], with the two keys the
    tests read. *)
Record View := {
  recent_events : list (datetime * models.ActionEvent);
  total_events : nat
}.

(** Modelled from the spec: the [/debug] handler, the retained entries and
    the lifetime count. *)
Definition view (t : Tracked) : View :=
  {| recent_events := RING (collector t); total_events := appended t |}.

End debug.

(** ** The two metric sets compared *)

Module variants.
Import prometheus_client.

(** Two metric objects that differ in their name by [prefix] only (the
    documentation string is not compared). *)
Definition same_but_prefix (prefix : string) (u v : Metric) : Prop :=
  name v = (prefix ++ name u)%string
  ∧ labelnames v = labelnames u
  ∧ is_histogram v = is_histogram u
  ∧ buckets v = buckets u.

(** The renaming the VS Code set applies: [edt_] becomes [main_], and the
    result is prefixed with [vscode_]. *)
Definition vscode_name (n : string) : string :=
  ("vscode_" ++
   (if String.prefix "edt_" n
    then "main_" ++ String.substring 4 (String.length n - 4) n
    else n))%string.

Definition renamed (u v : Metric) : Prop :=
  name v = vscode_name (name u)
  ∧ labelnames v = labelnames u
  ∧ is_histogram v = is_histogram u
  ∧ buckets v = buckets u.

End variants.

(** ** Vocabulary of the further properties *)

Module facts.
Import app.

(** The names of the fields of [ActionEvent]. *)
Definition field_names : list string :=
  ["action"; "duration_ms"; "thread"; "heap_delta_bytes"; "edt_stalls";
   "edt_longest_stall_ms"; "ts"].


(** Every field of [ev] is what its validator makes of [items];
    [validate_thread] is the validator of the [Literal] in use. *)
Definition fields_of (validate_thread : json_value → option Thread)
    (items : list (string * json_value)) (ev : models.ActionEvent) : Prop :=
  models.required "action" models.validate_str items = inr (models.action ev)
  ∧ models.required "duration_ms" models.validate_float items
    = inr (models.duration_ms ev)
  ∧ models.required "thread" validate_thread items = inr (models.thread ev)
  ∧ models.with_default "heap_delta_bytes" models.validate_int 0 items
    = inr (models.heap_delta_bytes ev)
  ∧ models.with_default "edt_stalls" models.validate_int 0 items
    = inr (models.edt_stalls ev)
  ∧ models.with_default "edt_longest_stall_ms" models.validate_float 0%float items
    = inr (models.edt_longest_stall_ms ev)
  ∧ models.required "ts" models.validate_datetime items = inr (models.ts ev).



(** A strictly positive observation of a [float]. *)
Definition positive_float (x : number) : Prop :=
  ∃ f, x = Float f ∧ (0 <? f)%float = true.

(** An observation of a non-zero [int]. *)
Definition nonzero_int (x : number) : Prop :=
  ∃ z, x = Int z ∧ z ≠ 0.

End facts.

(** ** Requests of the specification's scenarios and of the tests *)

Module scenarios.
Import app.

(** The double quote character, for writing raw bodies. *)
Definition dq : string := String (ascii_of_nat 34) EmptyString.

(** Scenario A. *)
Definition scenario_A_data : json_value :=
  JObject [("action", JString "X"); ("duration_ms", JFloat 850);
           ("thread", JString "EDT"); ("heap_delta_bytes", JInt 3072);
           ("edt_stalls", JInt 4); ("edt_longest_stall_ms", JFloat 275);
           ("ts", JString "2024-01-01T12:00:00Z")].

Definition scenario_A : Request :=
  {| body := ("{" ++ dq ++ "action" ++ dq ++ ": " ++ dq ++ "X" ++ dq ++ ", " ++ dq ++ "duration_ms" ++ dq ++ ": 850.0, " ++ dq ++ "thread" ++ dq ++ ": " ++ dq ++ "EDT" ++ dq ++ ", " ++ dq ++ "heap_delta_bytes" ++ dq ++ ": 3072, " ++ dq ++ "edt_stalls" ++ dq ++ ": 4, " ++ dq ++ "edt_longest_stall_ms" ++ dq ++ ": 275.0, " ++ dq ++ "ts" ++ dq ++ ": " ++ dq ++ "2024-01-01T12:00:00Z" ++ dq ++ "}")%string;
     json := Returns scenario_A_data |}.



(** Scenario C, as in [test_ingest_malformed_json]; the parser's message is
    left open. *)
Definition scenario_C (ex : string) : Request :=
  {| body := ("{" ++ dq ++ "action" ++ dq ++ ": " ++ dq ++ "test" ++ dq ++ ", " ++ dq ++ "invalid" ++ dq ++ ": json}")%string;
     json := Raises ex |}.

(** An event whose action is the empty string. *)
Definition empty_action_data : json_value :=
  JObject [("action", JString ""); ("duration_ms", JFloat 1);
           ("thread", JString "EDT"); ("ts", JString "2024-01-01T12:00:00Z")].

Definition empty_action : Request :=
  {| body := ("{" ++ dq ++ "action" ++ dq ++ ": " ++ dq ++ dq ++ ", " ++ dq ++ "duration_ms" ++ dq ++ ": 1.0, " ++ dq ++ "thread" ++ dq ++ ": " ++ dq ++ "EDT" ++ dq ++ ", " ++ dq ++ "ts" ++ dq ++ ": " ++ dq ++ "2024-01-01T12:00:00Z" ++ dq ++ "}")%string;
     json := Returns empty_action_data |}.

(** An event with a negative stall count. *)
Definition negative_stalls_data : json_value :=
  JObject [("action", JString "X"); ("duration_ms", JFloat 1);
           ("thread", JString "EDT"); ("edt_stalls", JInt (-5));
           ("ts", JString "2024-01-01T12:00:00Z")].

Definition negative_stalls : Request :=
  {| body := ("{" ++ dq ++ "action" ++ dq ++ ": " ++ dq ++ "X" ++ dq ++ ", " ++ dq ++ "duration_ms" ++ dq ++ ": 1.0, " ++ dq ++ "thread" ++ dq ++ ": " ++ dq ++ "EDT" ++ dq ++ ", " ++ dq ++ "edt_stalls" ++ dq ++ ": -5, " ++ dq ++ "ts" ++ dq ++ ": " ++ dq ++ "2024-01-01T12:00:00Z" ++ dq ++ "}")%string;
     json := Returns negative_stalls_data |}.





(** An event whose longest stall is negative. *)
Definition negative_stall_ms_data : json_value :=
  JObject [("action", JString "X"); ("duration_ms", JFloat 1);
           ("thread", JString "EDT"); ("edt_longest_stall_ms", JFloat (-3.5));
           ("ts", JString "2024-01-01T12:00:00Z")].

Definition negative_stall_ms : Request :=
  {| body := ("{" ++ dq ++ "action" ++ dq ++ ": " ++ dq ++ "X" ++ dq ++ ", " ++ dq ++ "duration_ms" ++ dq ++ ": 1.0, " ++ dq ++ "thread" ++ dq ++ ": " ++ dq ++ "EDT" ++ dq ++ ", " ++ dq ++ "edt_longest_stall_ms" ++ dq ++ ": -3.5, " ++ dq ++ "ts" ++ dq ++ ": " ++ dq ++ "2024-01-01T12:00:00Z" ++ dq ++ "}")%string;
     json := Returns negative_stall_ms_data |}.



End scenarios.

(** * Properties *)

(** ** Floats *)

Section floats.




End floats.

(** ** The metrics library *)

Section library.
Import prometheus_client.

Lemma observe_labels (lv : list string) (x : number) (c : histogram_children) :
  observe lv x (labels [] lv c) = observe lv x c.
Proof.
  unfold observe, observations, labels.
  destruct (c !! lv) as [o|] eqn:E.
  - by rewrite ?E.
  - rewrite lookup_insert_eq, ?E. simpl. apply insert_insert_eq.
Qed.

Lemma inc_labels (lv : list string) (n : Z) (c : counter_children) :
  0 ≤ n →
  inc lv n (labels 0 lv c) = Some (<[lv := value c lv + n]> c).
Proof.
  intros Hn. unfold inc, value, labels.
  destruct (Z.ltb_spec n 0) as [?|_]; [lia|].
  destruct (c !! lv) as [o|] eqn:E.
  - by rewrite ?E.
  - rewrite lookup_insert_eq, ?E. simpl. by rewrite insert_insert_eq.
Qed.

Lemma observations_observe (lv : list string) (x : number) (c : histogram_children) :
  observations (observe lv x c) lv = observations c lv ++ [x].
Proof. unfold observe, observations at 1. by rewrite lookup_insert_eq. Qed.

Lemma observations_observe_ne (lv lv' : list string) (x : number)
    (c : histogram_children) :
  lv ≠ lv' → observations (observe lv x c) lv' = observations c lv'.
Proof.
  intros Hne. unfold observe, observations at 1.
  by rewrite lookup_insert_ne.
Qed.

Lemma value_insert (lv : list string) (v : Z) (c : counter_children) :
  value (<[lv := v]> c) lv = v.
Proof. unfold value. by rewrite lookup_insert_eq. Qed.

Lemma value_insert_ne (lv lv' : list string) (v : Z) (c : counter_children) :
  lv ≠ lv' → value (<[lv := v]> c) lv' = value c lv'.
Proof. intros Hne. unfold value. by rewrite lookup_insert_ne. Qed.

Lemma total_insert (lv : list string) (v : Z) (c : counter_children) :
  total (<[lv := v]> c) = total c - value c lv + v.
Proof.
  unfold total, value.
  destruct (c !! lv) as [o|] eqn:E.
  - rewrite <- (insert_delete_eq c lv v).
    rewrite (map_fold_delete_L _ _ lv o c) by (intros; lia || done).
    rewrite map_fold_insert_L by (intros; lia || apply lookup_delete_eq).
    rewrite ?E. simpl. lia.
  - rewrite map_fold_insert_L by (intros; lia || done).
    rewrite ?E. simpl. lia.
Qed.

End library.

(** ** The handler *)

Section handler.
Import prometheus_client app.

(** The statements of the handler never raise, and leave [recorded]. *)
Lemma record_recorded (ev : models.ActionEvent) (st : State) :
  record ev st = (Return tt, recorded ev st).
Proof.
  unfold record, recorded, mbind, M_bind, bind, when, ret, labels_observe,
    labels_inc,
    RING_append, action_thread, secs, stall_secs, entry.
  destruct st as [ad sd stt et hd ring]. cbn [get set g_action_duration_seconds
    g_edt_stall_duration_seconds g_edt_stalls_total g_events_total
    g_heap_delta_bytes g_RING action_duration_seconds
    edt_stall_duration_seconds edt_stalls_total events_total
    heap_delta_bytes RING].
  rewrite !observe_labels.
  destruct (PrimFloat.ltb 0 _) eqn:Hs;
    destruct (Z.ltb_spec 0 (models.edt_stalls ev)) as [Hp|Hp];
    destruct (Z.eqb_spec (models.heap_delta_bytes ev) 0) as [Hh|Hh];
    cbn [negb get set g_action_duration_seconds
      g_edt_stall_duration_seconds g_edt_stalls_total g_events_total
      g_heap_delta_bytes g_RING action_duration_seconds
      edt_stall_duration_seconds edt_stalls_total events_total
      heap_delta_bytes RING];
    rewrite ?observe_labels, ?inc_labels by lia;
    cbn [negb get set g_action_duration_seconds
      g_edt_stall_duration_seconds g_edt_stalls_total g_events_total
      g_heap_delta_bytes g_RING action_duration_seconds
      edt_stall_duration_seconds edt_stalls_total events_total
      heap_delta_bytes RING];
    rewrite ?observe_labels, ?inc_labels by lia;
    reflexivity.
Qed.

Lemma ingest_accepted (request : Request) (ev : models.ActionEvent) (st : State) :
  accepted request = Some ev →
  ingest request st = (JSONResponse 200 Ok, recorded ev st).
Proof.
  unfold accepted, ingest.
  destruct (json request) as [ex|data]; [done|].
  destruct (models.ActionEvent_new data) as [ex|ev']; [done|].
  intros [= ->]. by rewrite record_recorded.
Qed.

Lemma ingest_rejected (request : Request) (st : State) :
  accepted request = None → (ingest request st).2 = st.
Proof.
  unfold accepted, ingest.
  destruct (json request) as [ex|data]; [done|].
  by destruct (models.ActionEvent_new data) as [ex|ev'].
Qed.

End handler.

(** ** The claims *)

Import prometheus_client app scenarios.







(** The comparison of C7 is made on the value in seconds: a positive stall
    so small that dividing by 1000.0 rounds to zero is not observed. *)
Example stall_duration_underflow :
  (0 <? 5e-324)%float = true
  ∧ (0 <? py_max 0 5e-324 / 1000)%float = false.
Proof. split; reflexivity. Qed.





(** C10. Across any sequence of ingest calls, from any state, the value of no
    [edt_stalls_total] series decreases.  The schema puts no lower bound on
    [edt_stalls]: an event with a negative count is accepted, and such an
    event, like one with a zero count, leaves the metric as it was. *)
Theorem stalls_total_never_decreases :
  (∀ (requests : list Request) (st : State) (lv : list string),
     value (edt_stalls_total st) lv
     ≤ value (edt_stalls_total (ingest_all requests st)) lv)
  ∧ (∀ (request : Request) (ev : models.ActionEvent) (st : State),
       accepted request = Some ev → models.edt_stalls ev ≤ 0 →
       (ingest request st).1 = JSONResponse 200 Ok
       ∧ edt_stalls_total (ingest request st).2 = edt_stalls_total st)
  ∧ (∃ ev, accepted negative_stalls = Some ev ∧ models.edt_stalls ev = -5).
Proof.
  split; [|split].
  - intros requests. induction requests as [|r rest IH]; intros st lv.
    + reflexivity.
    + cbn [ingest_all]. etrans; [|apply IH].
      destruct (accepted r) as [ev|] eqn:Hacc.
      * rewrite (ingest_accepted _ _ st Hacc). cbn [snd recorded edt_stalls_total].
        destruct (Z.ltb_spec 0 (models.edt_stalls ev)) as [Hpos|_]; [|reflexivity].
        destruct (decide ([models.action ev] = lv)) as [<-|Hne].
        -- rewrite value_insert. lia.
        -- by rewrite value_insert_ne.
      * by rewrite (ingest_rejected _ st Hacc).
  - intros request ev st Hacc Hle. rewrite (ingest_accepted _ _ st Hacc).
    cbn [fst snd recorded edt_stalls_total]. split; [reflexivity|].
    destruct (Z.ltb_spec 0 (models.edt_stalls ev)); [lia|reflexivity].
  - eexists. split; vm_compute; reflexivity.
Qed.

Lemma stalls_total_never_decreases_negative_stalls :
  ∃ ev, accepted negative_stalls = Some ev ∧ models.edt_stalls ev ≤ 0
        ∧ edt_stalls_total (ingest negative_stalls initial).2
          = edt_stalls_total initial.
Proof.
  eexists. split; [vm_compute; reflexivity|]. split; [cbn; lia|].
  refine (proj2 (proj1 (proj2 stalls_total_never_decreases)
                   negative_stalls _ initial eq_refl _)).
  cbn. lia.
Defined.

(** ** The ring buffer *)

Section ring.

Lemma length_lastn {A} (n : nat) (l : list A) :
  length (lastn n l) = Nat.min (length l) n.
Proof. unfold lastn. rewrite length_drop. lia. Qed.

(** Appending to the buffer that holds the last [n] items of [l] gives the
    last [n] items of [l] with the new item. *)
Lemma deque_append_lastn {A} (n : nat) (x : A) (l : list A) :
  deque_append n x (lastn n l) = lastn n (l ++ [x]).
Proof.
  unfold deque_append.
  rewrite length_app, length_lastn. cbn [length]. unfold lastn.
  rewrite length_app. cbn [length].
  destruct (Nat.ltb_spec n (Nat.min (length l) n + 1)) as [Hfull|Hroom].
  - replace (length l + 1 - n)%nat with (length l - n + 1)%nat by lia.
    rewrite <- drop_drop, drop_app_le by lia.
    by destruct (drop (length l - n) l ++ [x]).
  - replace (length l - n)%nat with 0%nat by lia.
    replace (length l + 1 - n)%nat with 0%nat by lia.
    reflexivity.
Qed.

(** The buffer after a sequence of calls: the calls that are accepted
    append their entries, the others do nothing. *)
Lemma RING_ingest_all (requests : list Request) (st : State)
    (l : list (datetime * models.ActionEvent)) :
  RING st = lastn maxlen l →
  RING (ingest_all requests st)
  = lastn maxlen (l ++ (entry <$> omap accepted requests)).
Proof.
  revert st l. induction requests as [|r rest IH]; intros st l Hst.
  - cbn. by rewrite app_nil_r.
  - cbn [ingest_all omap list_omap].
    destruct (accepted r) as [ev|] eqn:Hacc.
    + rewrite (IH _ (l ++ [entry ev])).
      * by rewrite <- app_assoc.
      * rewrite (ingest_accepted _ _ st Hacc). cbn [snd recorded RING].
        rewrite Hst. apply deque_append_lastn.
    + rewrite (ingest_rejected _ st Hacc). by apply IH.
Qed.

Lemma RING_from_initial (requests : list Request) :
  RING (ingest_all requests initial)
  = lastn maxlen (entry <$> omap accepted requests).
Proof. by rewrite (RING_ingest_all requests initial []). Qed.


End ring.



(** ** The debug view *)

Section debug_view.

Lemma debug_ingest_all (requests : list Request) (t : debug.Tracked) :
  debug.collector (debug.ingest_all requests t)
  = ingest_all requests (debug.collector t)
  ∧ debug.appended (debug.ingest_all requests t)
    = (debug.appended t + length (omap accepted requests))%nat.
Proof.
  revert t. induction requests as [|r rest IH]; intros t.
  - cbn. split; [reflexivity|lia].
  - cbn [debug.ingest_all ingest_all omap list_omap].
    destruct (IH (debug.ingest r t).2) as [IHc IHn]. rewrite IHc, IHn.
    unfold debug.ingest.
    destruct (accepted r) as [ev|] eqn:Hacc.
    + rewrite (ingest_accepted _ _ (debug.collector t) Hacc).
      cbn. split; [reflexivity|lia].
    + revert Hacc. unfold accepted, ingest.
      destruct (json r) as [ex|data]; [intros _; cbn; split; [done|lia]|].
      destruct (models.ActionEvent_new data); [|done].
      intros _. cbn. split; [done|lia].
Qed.

End debug_view.



(** The collector's own buffer does not tell how many events were appended:
    256 and 300 arrivals of the same event leave the same [RING]. *)
Remark ring_forgets_evicted :
  RING (ingest_all (replicate 256 scenario_A) initial)
  = RING (ingest_all (replicate 300 scenario_A) initial).
Proof.
  rewrite !RING_from_initial. vm_compute. reflexivity.
Qed.

(** The collector's state does hold a count of all appends: every accepted
    event adds one to one series of [events_total], so the sum of that counter
    over its series is the number the debug view reports. *)
Remark events_total_counts_appends (requests : list Request) :
  total (events_total (ingest_all requests initial))
  = Z.of_nat (debug.total_events
                (debug.view (debug.ingest_all requests debug.initial))).
Proof.
  unfold debug.view. cbn [debug.total_events].
  rewrite (proj2 (debug_ingest_all requests debug.initial)).
  cbn [debug.initial debug.appended].
  assert (H : ∀ st, total (events_total (ingest_all requests st))
                    = total (events_total st)
                      + Z.of_nat (length (omap accepted requests))).
  { induction requests as [|r rest IH]; intros st.
    - cbn. lia.
    - cbn [ingest_all omap list_omap]. rewrite IH.
      destruct (accepted r) as [ev|] eqn:Hacc.
      + rewrite (ingest_accepted _ _ st Hacc).
        cbn [snd recorded events_total length]. rewrite total_insert. lia.
      + by rewrite (ingest_rejected _ st Hacc). }
  rewrite H. reflexivity.
Qed.

(** ** Validation of [action] *)

(** The claim C5 as stated, that every validated event has a non-empty
    action, fails: the annotation of [action] is [str] and nothing more. *)
Lemma empty_action_is_accepted :
  ¬ (∀ (request : Request) (ev : models.ActionEvent),
       accepted request = Some ev → models.action ev ≠ "").
Proof.
  intros H.
  destruct (accepted empty_action) as [ev|] eqn:E; [|discriminate E].
  apply (H empty_action ev E).
  injection E as <-. reflexivity.
Qed.

(** C5, amended. A payload is accepted only if [action] is present and is a
    string, and the event carries that string unchanged; every string,
    the empty one included, is accepted as [action]. *)
Theorem action_is_any_string :
  (∀ (data : json_value) (ev : models.ActionEvent),
     models.ActionEvent_new data = inr ev →
     ∃ items, data = JObject items
              ∧ dict_get "action" items = Some (JString (models.action ev)))
  ∧ (∀ (s : string) (d : float) (t : Thread),
       ∃ ev, models.ActionEvent_new
               (JObject [("action", JString s); ("duration_ms", JFloat d);
                         ("thread", JString (thread_str t));
                         ("ts", JString "2024-01-01T12:00:00Z")])
             = inr ev
             ∧ models.action ev = s ∧ models.duration_ms ev = d
             ∧ models.thread ev = t).
Proof.
  split.
  - intros data ev. destruct data as [| | | | | |items]; try discriminate.
    intros H. exists items. split; [reflexivity|].
    unfold models.ActionEvent_new in H.
    destruct (models.required "action" models.validate_str items)
      as [e|a] eqn:Ha.
    + repeat match type of H with
             | match ?x with _ => _ end = _ => destruct x
             end; discriminate H.
    + assert (Hev : models.action ev = a).
      { repeat match type of H with
               | match ?x with _ => _ end = _ => destruct x
               end; try discriminate H.
        by injection H as <-. }
      rewrite Hev. unfold models.required in Ha.
      destruct (dict_get "action" items) as [v|]; [|discriminate Ha].
      destruct v; try discriminate Ha. cbn in Ha. by injection Ha as ->.
  - intros s d t. eexists. split.
    + destruct t; vm_compute; reflexivity.
    + destruct t; repeat split.
Qed.

Lemma action_is_any_string_empty :
  ∃ ev, models.ActionEvent_new empty_action_data = inr ev
        ∧ dict_get "action"
            [("action", JString ""); ("duration_ms", JFloat 1);
             ("thread", JString "EDT"); ("ts", JString "2024-01-01T12:00:00Z")]
          = Some (JString (models.action ev)).
Proof.
  eexists. split; [vm_compute; reflexivity|].
  destruct (proj1 action_is_any_string empty_action_data _ eq_refl)
    as (items & Hitems & Hget).
  injection Hitems as <-. exact Hget.
Defined.

(** ** The two metric sets *)

(** The claim C6 as stated, that the VS Code set is the unified set of five
    metrics under another name prefix, fails for every prefix: the VS Code
    module defines four metrics. *)
Lemma vscode_metrics_are_not_five :
  ¬ (length vscode_freezeguard.metrics.all = 5%nat
     ∧ ∃ prefix, Forall2 (variants.same_but_prefix prefix)
                   metrics.all vscode_freezeguard.metrics.all).
Proof. intros [H _]. discriminate H. Qed.

(** C6, amended. The unified collector defines five metrics.  The VS Code
    collector defines four: the counterparts of the first four, each with
    the same kind, label names and buckets, under the name obtained by
    writing [main_] for a leading [edt_] and prefixing [vscode_]; it has no
    heap-delta histogram.  Its thread enumeration is the two values [MAIN]
    and [WORKER], which the unified enumeration also has, and the unified
    validator accepts every thread the VS Code validator accepts. *)
Theorem vscode_metrics_are_four_renamed :
  length metrics.all = 5%nat
  ∧ length vscode_freezeguard.metrics.all = 4%nat
  ∧ metrics.all = take 4 metrics.all ++ [metrics.heap_delta_bytes]
  ∧ Forall2 variants.renamed (take 4 metrics.all) vscode_freezeguard.metrics.all
  ∧ name <$> vscode_freezeguard.metrics.all
    = ["vscode_action_duration_seconds"; "vscode_main_stall_duration_seconds";
       "vscode_main_stalls_total"; "vscode_events_total"]
  ∧ vscode_freezeguard.models.thread_literal = ["MAIN"; "WORKER"]
  ∧ vscode_freezeguard.models.thread_literal ⊆ models.thread_literal
  ∧ (∀ s, is_Some (models.validate_thread (JString s))
          ↔ s ∈ models.thread_literal)
  ∧ (∀ v t, vscode_freezeguard.models.validate_thread v = Some t →
            models.validate_thread v = Some t).
Proof.
  split; [reflexivity|]. split; [reflexivity|]. split; [reflexivity|].
  split; [repeat constructor|]. split; [reflexivity|]. split; [reflexivity|].
  split; [|split].
  - intros s. unfold vscode_freezeguard.models.thread_literal,
      models.thread_literal. rewrite !elem_of_cons. tauto.
  - intros s. unfold models.validate_thread, models.thread_literal.
    rewrite !elem_of_cons, elem_of_nil.
    destruct (String.eqb s "EDT") eqn:E1;
      [apply String.eqb_eq in E1; split; [tauto|by eexists]|].
    destruct (String.eqb s "BGT") eqn:E2;
      [apply String.eqb_eq in E2; split; [tauto|by eexists]|].
    destruct (String.eqb s "MAIN") eqn:E3;
      [apply String.eqb_eq in E3; split; [tauto|by eexists]|].
    destruct (String.eqb s "WORKER") eqn:E4;
      [apply String.eqb_eq in E4; split; [tauto|by eexists]|].
    apply String.eqb_neq in E1, E2, E3, E4.
    split; [by intros [? ?]|tauto].
  - intros v t. destruct v as [| | | |s| |]; try discriminate.
    unfold vscode_freezeguard.models.validate_thread, models.validate_thread.
    destruct (String.eqb s "MAIN") eqn:E1;
      [apply String.eqb_eq in E1 as ->; done|].
    destruct (String.eqb s "WORKER") eqn:E2;
      [apply String.eqb_eq in E2 as ->; done|discriminate].
Qed.

Lemma vscode_metrics_are_four_renamed_worker :
  vscode_freezeguard.models.validate_thread (JString "WORKER") = Some WORKER
  ∧ models.validate_thread (JString "WORKER") = Some WORKER.
Proof.
  split; [reflexivity|].
  apply (proj2 (proj2 (proj2 (proj2 (proj2 (proj2 (proj2 (proj2
           vscode_metrics_are_four_renamed)))))))).
  reflexivity.
Defined.

(** * Further properties of the code *)

Import facts.

(** ** Validation *)

Section validation.

Lemma ActionEvent_new_inr (items : list (string * json_value))
    (ev : models.ActionEvent) :
  models.ActionEvent_new (JObject items) = inr ev
  ↔ fields_of models.validate_thread items ev.
Proof.
  unfold models.ActionEvent_new, fields_of.
  destruct (models.required "action" models.validate_str items);
    destruct (models.required "duration_ms" models.validate_float items);
    destruct (models.required "thread" models.validate_thread items);
    destruct (models.with_default "heap_delta_bytes" models.validate_int 0 items);
    destruct (models.with_default "edt_stalls" models.validate_int 0 items);
    destruct (models.with_default "edt_longest_stall_ms" models.validate_float
                0%float items);
    destruct (models.required "ts" models.validate_datetime items);
    (split; [intros H; try discriminate H; injection H as <-; by repeat split
            |intros (?&?&?&?&?&?&?); try discriminate; simplify_eq;
             by destruct ev]).
Qed.

Lemma vscode_ActionEvent_new_inr (items : list (string * json_value))
    (ev : models.ActionEvent) :
  vscode_freezeguard.models.ActionEvent_new (JObject items) = inr ev
  ↔ fields_of vscode_freezeguard.models.validate_thread items ev.
Proof.
  unfold vscode_freezeguard.models.ActionEvent_new, fields_of.
  destruct (models.required "action" models.validate_str items);
    destruct (models.required "duration_ms" models.validate_float items);
    destruct (models.required "thread"
                vscode_freezeguard.models.validate_thread items);
    destruct (models.with_default "heap_delta_bytes" models.validate_int 0 items);
    destruct (models.with_default "edt_stalls" models.validate_int 0 items);
    destruct (models.with_default "edt_longest_stall_ms" models.validate_float
                0%float items);
    destruct (models.required "ts" models.validate_datetime items);
    (split; [intros H; try discriminate H; injection H as <-; by repeat split
            |intros (?&?&?&?&?&?&?); try discriminate; simplify_eq;
             by destruct ev]).
Qed.

(** A field that fails makes the whole call fail, with its errors among
    those reported. *)
Lemma ActionEvent_new_inl (items : list (string * json_value)) :
  ∀ e, (models.required "action" models.validate_str items = inl e
        ∨ models.required "duration_ms" models.validate_float items = inl e
        ∨ models.required "thread" models.validate_thread items = inl e
        ∨ models.required "ts" models.validate_datetime items = inl e) →
       ∃ errs, models.ActionEvent_new (JObject items) = inl errs ∧ e ⊆ errs.
Proof.
  intros e He. unfold models.ActionEvent_new.
  destruct (models.required "action" models.validate_str items);
    destruct (models.required "duration_ms" models.validate_float items);
    destruct (models.required "thread" models.validate_thread items);
    destruct (models.with_default "heap_delta_bytes" models.validate_int 0 items);
    destruct (models.with_default "edt_stalls" models.validate_int 0 items);
    destruct (models.with_default "edt_longest_stall_ms" models.validate_float
                0%float items);
    destruct (models.required "ts" models.validate_datetime items);
    (destruct He as [He|[He|[He|He]]]; try discriminate He;
     injection He as ->; eexists; (split; [reflexivity|]);
     cbn [models.errors]; intros x Hx; rewrite !elem_of_app; tauto).
Qed.

End validation.

Section validation_facts.

Lemma dict_get_app_unknown (f k : string) (v : json_value)
    (l1 l2 : list (string * json_value)) :
  f ≠ k → dict_get f (l1 ++ (k, v) :: l2) = dict_get f (l1 ++ l2).
Proof.
  intros Hne. induction l1 as [|[k' v'] l1 IH]; cbn.
  - destruct (String.eqb f k) eqn:E; [|reflexivity].
    apply String.eqb_eq in E. contradiction.
  - by rewrite IH.
Qed.





(** X3. Validation looks at the seven field names only: two documents that
    agree on them validate alike, so an item under any other key, wherever
    it stands, is ignored. *)
Theorem validation_reads_fields_only :
  (∀ items items' : list (string * json_value),
     (∀ f, f ∈ field_names → dict_get f items = dict_get f items') →
     models.ActionEvent_new (JObject items)
     = models.ActionEvent_new (JObject items'))
  ∧ (∀ (l1 l2 : list (string * json_value)) (k : string) (v : json_value),
       k ∉ field_names →
       models.ActionEvent_new (JObject (l1 ++ (k, v) :: l2))
       = models.ActionEvent_new (JObject (l1 ++ l2))).
Proof.
  assert (Hfst : ∀ items items' : list (string * json_value),
            (∀ f, f ∈ field_names → dict_get f items = dict_get f items') →
            models.ActionEvent_new (JObject items)
            = models.ActionEvent_new (JObject items')).
  { intros items items' H.
    unfold models.ActionEvent_new, models.required, models.with_default.
    rewrite (H "action"), (H "duration_ms"), (H "thread"),
      (H "heap_delta_bytes"), (H "edt_stalls"), (H "edt_longest_stall_ms"),
      (H "ts");
      [reflexivity|unfold field_names; rewrite !elem_of_cons; tauto..]. }
  split; [exact Hfst|].
  intros l1 l2 k v Hk. apply Hfst. intros f Hf.
  apply dict_get_app_unknown. intros ->. contradiction.
Qed.

Lemma validation_reads_fields_only_extra_key :
  models.ActionEvent_new
    (JObject ([("action", JString "")] ++ ("invalid", JNull)
              :: [("duration_ms", JFloat 1); ("thread", JString "EDT");
                  ("ts", JString "2024-01-01T12:00:00Z")]))
  = models.ActionEvent_new empty_action_data.
Proof.
  apply (proj2 validation_reads_fields_only [("action", JString "")]).
  unfold field_names. rewrite !elem_of_cons, elem_of_nil.
  intros [H|[H|[H|[H|[H|[H|[H|[]]]]]]]]; discriminate H.
Defined.

(** X4. The [thread] of a validated event is the string the document gives,
    unchanged and one of the four literals; a document whose [thread] is
    anything else, a string in another case included, is rejected with an
    error on that field. *)
Theorem thread_is_the_literal_received :
  (∀ (items : list (string * json_value)) (ev : models.ActionEvent),
     models.ActionEvent_new (JObject items) = inr ev →
     dict_get "thread" items = Some (JString (thread_str (models.thread ev)))
     ∧ thread_str (models.thread ev) ∈ models.thread_literal)
  ∧ (∀ (items : list (string * json_value)) (v : json_value),
       dict_get "thread" items = Some v →
       (∀ t, v ≠ JString (thread_str t)) →
       ∃ errs, models.ActionEvent_new (JObject items) = inl errs
               ∧ models.Invalid "thread" ∈ errs).
Proof.
  assert (Hinv : ∀ v t, models.validate_thread v = Some t →
                        v = JString (thread_str t)).
  { intros v t. destruct v as [| | | |s| |]; try discriminate. cbn.
    destruct (String.eqb s "EDT") eqn:E1;
      [apply String.eqb_eq in E1 as ->; by intros [= <-]|].
    destruct (String.eqb s "BGT") eqn:E2;
      [apply String.eqb_eq in E2 as ->; by intros [= <-]|].
    destruct (String.eqb s "MAIN") eqn:E3;
      [apply String.eqb_eq in E3 as ->; by intros [= <-]|].
    destruct (String.eqb s "WORKER") eqn:E4;
      [apply String.eqb_eq in E4 as ->; by intros [= <-]|discriminate]. }
  split.
  - intros items ev Hev. apply ActionEvent_new_inr in Hev.
    destruct Hev as (_ & _ & Ht & _). unfold models.required in Ht.
    destruct (dict_get "thread" items) as [v|]; [|discriminate Ht].
    destruct (models.validate_thread v) as [t|] eqn:Hv; [|discriminate Ht].
    injection Ht as <-. rewrite (Hinv _ _ Hv). split; [reflexivity|].
    unfold models.thread_literal. rewrite !elem_of_cons.
    destruct t; cbn; tauto.
  - intros items v Hget Hnot.
    destruct (ActionEvent_new_inl items [models.Invalid "thread"])
      as (errs & He & Hsub).
    { right. right. left. unfold models.required. rewrite Hget.
      destruct (models.validate_thread v) as [t|] eqn:Hv; [|reflexivity].
      destruct (Hnot t (Hinv _ _ Hv)). }
    exists errs. split; [exact He|]. apply Hsub. by left.
Qed.

Lemma thread_is_the_literal_received_lower_case :
  ∃ errs, models.ActionEvent_new
            (JObject [("action", JString "X"); ("thread", JString "edt")])
          = inl errs
          ∧ models.Invalid "thread" ∈ errs.
Proof.
  apply (proj2 thread_is_the_literal_received _ (JString "edt")).
  - reflexivity.
  - intros t H. destruct t; discriminate H.
Defined.



Lemma vscode_required_thread (items : list (string * json_value)) (t : Thread) :
  models.required "thread" vscode_freezeguard.models.validate_thread items
  = inr t
  ↔ models.required "thread" models.validate_thread items = inr t
    ∧ (t = MAIN ∨ t = WORKER).
Proof.
  unfold models.required.
  destruct (dict_get "thread" items) as [v|];
    [|split; [discriminate|intros [H _]; discriminate H]].
  destruct v as [| | | |s| |];
    try (split; [discriminate|intros [H _]; discriminate H]).
  cbn.
  destruct (String.eqb s "EDT") eqn:E1.
  { apply String.eqb_eq in E1 as ->. cbn.
    split; [discriminate|]. intros [[= <-] [?|?]]; discriminate. }
  destruct (String.eqb s "BGT") eqn:E2.
  { apply String.eqb_eq in E2 as ->. cbn.
    split; [discriminate|]. intros [[= <-] [?|?]]; discriminate. }
  destruct (String.eqb s "MAIN"); [split; [intros [= <-]|intros [? _]]; tauto|].
  destruct (String.eqb s "WORKER"); [split; [intros [= <-]|intros [? _]]; tauto|].
  split; [discriminate|intros [H _]; discriminate H].
Qed.

(** X6. The VS Code schema is the unified schema restricted to the threads
    [MAIN] and [WORKER]: what it validates the unified schema validates to
    the same event; what the unified schema validates with one of these two
    threads it validates too; and what the unified schema validates with
    thread [EDT] or [BGT] it rejects. *)
Theorem vscode_schema_restricts_unified
    (data : json_value) (ev : models.ActionEvent) :
  (vscode_freezeguard.models.ActionEvent_new data = inr ev →
   models.ActionEvent_new data = inr ev
   ∧ (models.thread ev = MAIN ∨ models.thread ev = WORKER))
  ∧ (models.ActionEvent_new data = inr ev →
     match models.thread ev with
     | MAIN | WORKER => vscode_freezeguard.models.ActionEvent_new data = inr ev
     | EDT | BGT =>
         ∃ errs, vscode_freezeguard.models.ActionEvent_new data = inl errs
     end).
Proof.
  destruct data as [| | | | | |items]; try (split; discriminate).
  assert (Hup : ∀ ev', vscode_freezeguard.models.ActionEvent_new (JObject items)
                       = inr ev' →
                       models.ActionEvent_new (JObject items) = inr ev'
                       ∧ (models.thread ev' = MAIN ∨ models.thread ev' = WORKER)).
  { intros ev'. rewrite ActionEvent_new_inr, vscode_ActionEvent_new_inr.
    unfold fields_of. rewrite vscode_required_thread. tauto. }
  split; [apply Hup|].
  intros Hev.
  assert (Hdown : models.thread ev = MAIN ∨ models.thread ev = WORKER →
                  vscode_freezeguard.models.ActionEvent_new (JObject items)
                  = inr ev).
  { intros Ht. apply vscode_ActionEvent_new_inr. apply ActionEvent_new_inr in Hev.
    unfold fields_of in *. rewrite vscode_required_thread. tauto. }
  assert (Hrej : models.thread ev ≠ MAIN → models.thread ev ≠ WORKER →
                 ∃ errs, vscode_freezeguard.models.ActionEvent_new (JObject items)
                         = inl errs).
  { intros Hm Hw.
    destruct (vscode_freezeguard.models.ActionEvent_new (JObject items))
      as [errs|ev'] eqn:E; [by eexists|].
    destruct (Hup ev' eq_refl) as [Hev' Ht].
    rewrite Hev in Hev'. injection Hev' as ->. tauto. }
  destruct (models.thread ev); auto; apply Hrej; discriminate.
Qed.

Lemma vscode_schema_restricts_unified_scenario_A :
  ∃ ev, models.ActionEvent_new scenario_A_data = inr ev
        ∧ ∃ errs, vscode_freezeguard.models.ActionEvent_new scenario_A_data
                  = inl errs.
Proof.
  eexists. split; [vm_compute; reflexivity|].
  exact (proj2 (vscode_schema_restricts_unified scenario_A_data _) eq_refl).
Defined.

End validation_facts.

(** ** The handler *)

Section handler_facts.

Lemma ingest_all_recorded (requests : list Request) (st : State) :
  ingest_all requests st = recorded_all (omap accepted requests) st.
Proof.
  revert st. induction requests as [|r rest IH]; intros st; [reflexivity|].
  cbn [ingest_all omap list_omap].
  destruct (accepted r) as [ev|] eqn:Hacc.
  - rewrite (ingest_accepted _ _ st Hacc). cbn [snd recorded_all]. apply IH.
  - rewrite (ingest_rejected _ st Hacc). apply IH.
Qed.


(** X8. An accepted event touches series of its own action only: every
    series of the five metrics whose first label value is another action is
    left as it was, created or not. *)
Theorem other_actions_untouched (request : Request) (ev : models.ActionEvent)
    (st : State) (lv : list string) :
  accepted request = Some ev →
  head lv ≠ Some (models.action ev) →
  let st' := (ingest request st).2 in
  action_duration_seconds st' !! lv = action_duration_seconds st !! lv
  ∧ edt_stall_duration_seconds st' !! lv = edt_stall_duration_seconds st !! lv
  ∧ edt_stalls_total st' !! lv = edt_stalls_total st !! lv
  ∧ events_total st' !! lv = events_total st !! lv
  ∧ heap_delta_bytes st' !! lv = heap_delta_bytes st !! lv.
Proof.
  intros Hacc Hlv. cbn zeta. rewrite (ingest_accepted _ _ st Hacc).
  cbn [snd recorded action_duration_seconds edt_stall_duration_seconds
         edt_stalls_total events_total heap_delta_bytes].
  assert (H2 : action_thread ev ≠ lv) by (intros <-; by apply Hlv).
  assert (H1 : [models.action ev] ≠ lv) by (intros <-; by apply Hlv).
  unfold observe.
  destruct (0 <? app.stall_secs ev)%float, (0 <? models.edt_stalls ev),
    (models.heap_delta_bytes ev =? 0);
    by rewrite ?lookup_insert_ne.
Qed.

Lemma other_actions_untouched_scenario_A :
  ∃ ev, accepted scenario_A = Some ev
        ∧ events_total (ingest scenario_A initial).2 !! ["Y"; "EDT"]
          = events_total initial !! ["Y"; "EDT"].
Proof.
  eexists. split; [vm_compute; reflexivity|].
  refine (proj1 (proj2 (proj2 (proj2
            (other_actions_untouched scenario_A _ initial ["Y"; "EDT"]
               eq_refl _))))).
  discriminate.
Defined.






End handler_facts.

Section metric_invariants.



(** X12. The conditional histograms hold no empty observation: if every
    observation of [edt_stall_duration_seconds] is a float strictly above
    zero and every observation of [heap_delta_bytes] a non-zero integer, as in
    the fresh collector, then so it is after any sequence of calls; no zero,
    no negative value and no NaN ever enters the stall histogram. *)
Theorem conditional_observations_well_formed (requests : list Request)
    (st : State) :
  (∀ key, Forall positive_float
            (observations (edt_stall_duration_seconds st) key)
          ∧ Forall nonzero_int (observations (heap_delta_bytes st) key)) →
  ∀ key, Forall positive_float
           (observations
              (edt_stall_duration_seconds (ingest_all requests st)) key)
         ∧ Forall nonzero_int
             (observations (heap_delta_bytes (ingest_all requests st)) key).
Proof.
  rewrite ingest_all_recorded. generalize (omap accepted requests) as evs.
  intros evs. revert st. induction evs as [|ev rest IH]; intros st Hst key.
  - apply Hst.
  - cbn [recorded_all]. apply IH. clear key. intros key.
    cbn [recorded edt_stall_duration_seconds heap_delta_bytes]. split.
    + destruct (0 <? app.stall_secs ev)%float eqn:Hs; [|apply Hst].
      destruct (decide ([models.action ev] = key)) as [<-|Hne].
      * rewrite observations_observe. apply Forall_app. split; [apply Hst|].
        constructor; [|constructor]. by eexists.
      * rewrite observations_observe_ne by done. apply Hst.
    + destruct (Z.eqb_spec (models.heap_delta_bytes ev) 0) as [?|Hnz];
        [apply Hst|].
      destruct (decide (action_thread ev = key)) as [<-|Hne].
      * rewrite observations_observe. apply Forall_app. split; [apply Hst|].
        constructor; [|constructor]. by eexists.
      * rewrite observations_observe_ne by done. apply Hst.
Qed.

Lemma conditional_observations_well_formed_negative_stall :
  Forall positive_float
    (observations
       (edt_stall_duration_seconds
          (ingest_all [negative_stall_ms; scenario_A] initial)) ["X"]).
Proof.
  refine (proj1 (conditional_observations_well_formed _ initial _ ["X"])).
  intros key. split; constructor.
Defined.








End metric_invariants.

(** ** The buffer and the report *)

Section buffer_facts.












End buffer_facts.
